(** * TelescopeClientAscom: a shallow embedding of the ASCOM telescope client

    Source: plugins/TelescopeControl/src/clients/TelescopeClientAscom.cpp.

    The client talks to a COM automation object (QAxObject) by property and
    method name.  The embedding keeps that surface: the remote object is an
    arbitrary state machine answering [property], [setProperty] and
    [dynamicCall]; every access the client makes is recorded as an event, and
    an access through the null [driver] pointer is a distinct outcome.
    Doubles are IEEE binary64 (primitive floats); qint64 time stamps are
    integers with the 64-bit wrap-around of their arithmetic written out. *)

From Stdlib Require Import ZArith List String Ascii Bool Lia Floats Sorted.
Import ListNotations.

Local Open Scope string_scope.
Local Open Scope Z_scope.

(** ** Names of the driver surface (the [const char*] constants) *)

Definition P_CONNECTED : string := "Connected".
Definition P_PARKED : string := "AtPark".
Definition P_TRACKING : string := "Tracking".
Definition P_CAN_SLEW : string := "CanSlew".
Definition P_CAN_SLEW_ASYNCHRONOUSLY : string := "CanSlewAsync".
Definition P_CAN_TRACK : string := "CanSetTracking".
Definition P_CAN_UNPARK : string := "CanUnpark".
Definition P_RA : string := "RightAscension".
Definition P_DEC : string := "Declination".
Definition P_EQUATORIAL_SYSTEM : string := "EquatorialSystem".
Definition M_UNPARK : string := "Unpark()".
Definition M_SLEW : string := "SlewToCoordinates(double, double)".
Definition M_SLEW_ASYNCHRONOUSLY : string :=
  "SlewToCoordinatesAsync(double, double)".

(** ** QVariant, as far as the client converts it *)

Inductive QVariant : Type :=
| VInvalid
| VBool (b : bool)
| VDouble (x : float).

Definition toBool (v : QVariant) : bool :=
  match v with
  | VInvalid => false
  | VBool b => b
  | VDouble x => negb (PrimFloat.eqb x 0%float)
  end.

Definition toDouble (v : QVariant) : float :=
  match v with
  | VInvalid => 0%float
  | VBool b => if b then 1%float else 0%float
  | VDouble x => x
  end.

(** ** 64-bit signed arithmetic *)

Definition wrap64 (z : Z) : Z := (z + 2 ^ 63) mod 2 ^ 64 - 2 ^ 63.

Definition in_qint64 (z : Z) : Prop := - 2 ^ 63 <= z < 2 ^ 63.

(** [M_PI] of <cmath>: the double nearest to pi. *)
Definition M_PI : float := 0x1.921fb54442d18p+1%float.

(** ** QString::arg

    Qt's place markers: [%] , an optional [L], then one or two decimal
    digits.  [arg] replaces every occurrence of the lowest-numbered marker
    present and returns the string unchanged when there is none.  The
    substituted text is part of the string the next [arg] scans.  (Field
    width is 0 here and the locale form of a marker receives the same text.) *)

Definition digitValue (ch : ascii) : option nat :=
  let n := nat_of_ascii ch in
  if andb (Nat.leb 48 n) (Nat.leb n 57) then Some (n - 48)%nat else None.

(** The digits of a marker: its number and how many characters they take. *)
Definition escape_digits (s : string) : option (nat * nat) :=
  match s with
  | String c1 r1 =>
      match digitValue c1 with
      | Some d1 =>
          match r1 with
          | String c2 _ =>
              match digitValue c2 with
              | Some d2 => Some (10 * d1 + d2, 2)%nat
              | None => Some (d1, 1%nat)
              end
          | EmptyString => Some (d1, 1%nat)
          end
      | None => None
      end
  | EmptyString => None
  end.

(** A marker at the head of [s]: its number and its length. *)
Definition escape_at (s : string) : option (nat * nat) :=
  match s with
  | String "%" (String "L" r) =>
      match escape_digits r with
      | Some (n, len) => Some (n, S (S len))
      | None => None
      end
  | String "%" r =>
      match escape_digits r with
      | Some (n, len) => Some (n, S len)
      | None => None
      end
  | _ => None
  end.

Definition option_min (a b : option nat) : option nat :=
  match a, b with
  | Some x, Some y => Some (Nat.min x y)
  | Some x, None => Some x
  | None, _ => b
  end.

(** findArgEscapes: the lowest marker number in the string.  The characters
    of a marker after its [%] are never [%], so looking for a marker at every
    position finds the markers of Qt's left-to-right scan. *)
Fixpoint min_escape (s : string) : option nat :=
  match s with
  | EmptyString => None
  | String _ r => option_min (option_map fst (escape_at s)) (min_escape r)
  end.

(** replaceArgEscapes: [skip] counts the characters of a replaced marker
    still to be dropped. *)
Fixpoint replaceArgEscapes (n : nat) (a : string) (skip : nat) (s : string)
  : string :=
  match s with
  | EmptyString => EmptyString
  | String ch r =>
      match skip with
      | S k => replaceArgEscapes n a k r
      | O =>
          match escape_at s with
          | Some (m, len) =>
              if Nat.eqb m n then a ++ replaceArgEscapes n a (Nat.pred len) r
              else String ch (replaceArgEscapes n a 0 r)
          | None => String ch (replaceArgEscapes n a 0 r)
          end
      end
  end.

Definition arg (s a : string) : string :=
  match min_escape s with
  | Some n => replaceArgEscapes n a 0 s
  | None => s
  end.

(** [QString::arg(int)]: the number in base 10. *)
Fixpoint string_of_uint (u : Decimal.uint) : string :=
  match u with
  | Decimal.Nil => EmptyString
  | Decimal.D0 r => String "0" (string_of_uint r)
  | Decimal.D1 r => String "1" (string_of_uint r)
  | Decimal.D2 r => String "2" (string_of_uint r)
  | Decimal.D3 r => String "3" (string_of_uint r)
  | Decimal.D4 r => String "4" (string_of_uint r)
  | Decimal.D5 r => String "5" (string_of_uint r)
  | Decimal.D6 r => String "6" (string_of_uint r)
  | Decimal.D7 r => String "7" (string_of_uint r)
  | Decimal.D8 r => String "8" (string_of_uint r)
  | Decimal.D9 r => String "9" (string_of_uint r)
  end.

Definition number (n : Z) : string :=
  match Z.to_int n with
  | Decimal.Pos Decimal.Nil => "0"
  | Decimal.Pos u => string_of_uint u
  | Decimal.Neg u => String "-" (string_of_uint u)
  end.

Definition arg_int (s : string) (n : Z) : string := arg s (number n).

Definition newline : string := String (ascii_of_nat 10) EmptyString.

(** ** The two collaborators declared outside this file *)

(** The automation object behind [QAxObject]: what a driver answers. *)
Class AxDriver : Type := {
  Device : Type;
  (** [setControl(id)]: whether the COM object could be instantiated. *)
  ax_setControl : string -> Device -> bool * Device;
  ax_property : string -> Device -> QVariant * Device;
  ax_setProperty : string -> QVariant -> Device -> Device;
  ax_dynamicCall : string -> list QVariant -> Device -> Device
}.

(** The host application: StelUtils, StelNavigator, the InterpolatedPosition
    member of the TelescopeClient base class and its refresh constant. *)
Class Host : Type := {
  Vec3d : Type;
  spheToRect : float -> float -> Vec3d;
  rectToSphe : Vec3d -> float * float;
  (** StelNavigator: from the equinox of the date to J2000, and back. *)
  equinoxEquToJ2000 : Vec3d -> Vec3d;
  j2000ToEquinoxEqu : Vec3d -> Vec3d;
  InterpolatedPosition : Type;
  ip_empty : InterpolatedPosition;
  (** [add(position, client_time, server_time)] *)
  ip_add : Vec3d -> Z -> Z -> InterpolatedPosition -> InterpolatedPosition;
  ip_get : Z -> InterpolatedPosition -> Vec3d;
  POSITION_REFRESH_INTERVAL : Z
}.

(** ** Events: what the client does to the outside *)

Inductive Event : Type :=
| EvSetControl (id : string)
| EvGet (p : string) (v : QVariant)
| EvSet (p : string) (v : QVariant)
| EvCall (m : string) (args : list QVariant)
| EvAscomError (message : string).

(** Every event but the emitted signal is an access to the driver. *)
Definition is_driver_access (e : Event) : bool :=
  match e with
  | EvAscomError _ => false
  | _ => true
  end.

Inductive Equinox : Type := EquinoxJ2000 | EquinoxJNow.

Definition Equinox_eqb (a b : Equinox) : bool :=
  match a, b with
  | EquinoxJ2000, EquinoxJ2000 | EquinoxJNow, EquinoxJNow => true
  | _, _ => false
  end.

(** The heap object [driver] points to; [isNull] is QAxObject::isNull(). *)
Record QAxObject : Type := { isNull : bool }.

Section Client.
Context {host : Host} {drv : AxDriver}.

(** The fields of [TelescopeClientAscom]; [driver = None] is the null
    pointer. *)
Record TelescopeClientAscom : Type := {
  name : string;
  equinox : Equinox;
  driverId : string;
  driver : option QAxObject;
  timeToGetPosition : Z;
  interpolatedPosition : InterpolatedPosition
}.

Definition set_driver (p : option QAxObject) (c : TelescopeClientAscom) :=
  {| name := name c; equinox := equinox c; driverId := driverId c;
     driver := p; timeToGetPosition := timeToGetPosition c;
     interpolatedPosition := interpolatedPosition c |}.

Definition set_driverId (s : string) (c : TelescopeClientAscom) :=
  {| name := name c; equinox := equinox c; driverId := s;
     driver := driver c; timeToGetPosition := timeToGetPosition c;
     interpolatedPosition := interpolatedPosition c |}.

Definition set_timeToGetPosition (t : Z) (c : TelescopeClientAscom) :=
  {| name := name c; equinox := equinox c; driverId := driverId c;
     driver := driver c; timeToGetPosition := t;
     interpolatedPosition := interpolatedPosition c |}.

Definition set_interpolatedPosition (ip : InterpolatedPosition)
    (c : TelescopeClientAscom) :=
  {| name := name c; equinox := equinox c; driverId := driverId c;
     driver := driver c; timeToGetPosition := timeToGetPosition c;
     interpolatedPosition := ip |}.

(** ** The monad of member functions

    A member function runs on the object and the device and either returns,
    with the events it caused, or dereferences the null [driver]. *)

Inductive Outcome (A : Type) : Type :=
| Returned (a : A) (c : TelescopeClientAscom) (d : Device) (evs : list Event)
| NullDereference (d : Device) (evs : list Event).
Arguments Returned {A} a c d evs.
Arguments NullDereference {A} d evs.

Definition M (A : Type) : Type := TelescopeClientAscom -> Device -> Outcome A.

Definition ret {A} (a : A) : M A := fun c d => Returned a c d [].

Definition bind {A B} (m : M A) (f : A -> M B) : M B :=
  fun c d =>
    match m c d with
    | Returned a c1 d1 e1 =>
        match f a c1 d1 with
        | Returned b c2 d2 e2 => Returned b c2 d2 (e1 ++ e2)
        | NullDereference d2 e2 => NullDereference d2 (e1 ++ e2)
        end
    | NullDereference d1 e1 => NullDereference d1 e1
    end.

Notation "x <- m ;; k" := (bind m (fun x => k))
  (at level 61, m at next level, right associativity).
Notation "m ;; k" := (bind m (fun _ => k))
  (at level 61, right associativity).

Definition events {A} (o : Outcome A) : list Event :=
  match o with
  | Returned _ _ _ evs => evs
  | NullDereference _ evs => evs
  end.

Definition this : M TelescopeClientAscom := fun c d => Returned c c d [].

Definition modify (f : TelescopeClientAscom -> TelescopeClientAscom) : M unit :=
  fun c d => Returned tt (f c) d [].

Definition emit_ascomError (message : string) : M unit :=
  fun c d => Returned tt c d [EvAscomError message].

(** *** Calls through the [driver] pointer

    On a QAxObject that holds no control the three calls do nothing and
    [property] answers an invalid variant. *)

Definition drv_property (p : string) : M QVariant :=
  fun c d =>
    match driver c with
    | None => NullDereference d []
    | Some ax =>
        if isNull ax then Returned VInvalid c d []
        else let (v, d1) := ax_property p d in Returned v c d1 [EvGet p v]
    end.

Definition drv_setProperty (p : string) (v : QVariant) : M unit :=
  fun c d =>
    match driver c with
    | None => NullDereference d []
    | Some ax =>
        if isNull ax then Returned tt c d []
        else Returned tt c (ax_setProperty p v d) [EvSet p v]
    end.

Definition drv_dynamicCall (m : string) (args : list QVariant) : M unit :=
  fun c d =>
    match driver c with
    | None => NullDereference d []
    | Some ax =>
        if isNull ax then Returned tt c d []
        else Returned tt c (ax_dynamicCall m args d) [EvCall m args]
    end.

(** [driver->isNull()] *)
Definition drv_isNull : M bool :=
  fun c d =>
    match driver c with
    | None => NullDereference d []
    | Some ax => Returned (isNull ax) c d []
    end.

(** [driver = new QAxObject(this); driver->setControl(driverId);] *)
Definition new_driver : M unit :=
  fun c d =>
    let (ok, d1) := ax_setControl (driverId c) d in
    Returned tt (set_driver (Some {| isNull := negb ok |}) c) d1
             [EvSetControl (driverId c)].

(** ** The member functions *)

Definition deleteDriver : M unit :=
  modify (fun c => match driver c with
                   | Some _ => set_driver None c
                   | None => c
                   end).

Definition isInitialized (c : TelescopeClientAscom) : bool :=
  match driver c with
  | Some ax => negb (isNull ax)
  | None => false
  end.

Definition isConnected : M bool :=
  c <- this ;;
  if negb (isInitialized c) then ret false
  else
    v <- drv_property P_CONNECTED ;;
    ret (toBool v).

Definition prepareCommunication : M bool :=
  c <- this ;;
  if negb (isInitialized c) then ret false else ret true.

(** The connection attempt shared by performCommunication and telescopeGoto:
    [true] when the link is up afterwards. *)
Definition ensureConnected : M bool :=
  connected <- isConnected ;;
  if negb connected then
    drv_setProperty P_CONNECTED (VBool true) ;;
    v <- drv_property P_CONNECTED ;;
    ret (toBool v)
  else ret true.

(** The constructor.  [uninit] is the indeterminate content of
    [timeToGetPosition], which has no initializer; [now] is what getNow()
    answers on the last line. *)
Definition initial (nm params : string) (eq : Equinox) (uninit : Z)
  : TelescopeClientAscom :=
  {| name := nm; equinox := eq; driverId := EmptyString; driver := None;
     timeToGetPosition := uninit; interpolatedPosition := ip_empty |}.

Definition constructor_body (params : string) (now : Z) : M unit :=
  modify (set_driverId params) ;;
  new_driver ;;
  null <- drv_isNull ;;
  if null then ret tt
  else
    (* connect(driver, SIGNAL(exception ...)) registers
       handleDriverException; canSlew only decides a warning *)
    _ <- drv_property P_CAN_SLEW ;;
    drv_setProperty P_CONNECTED (VBool true) ;;
    v <- drv_property P_CONNECTED ;;
    (if negb (toBool v) then deleteDriver else ret tt) ;;
    parked <- drv_property P_PARKED ;;
    (if toBool parked then
       canUnpark <- drv_property P_CAN_UNPARK ;;
       if negb (toBool canUnpark) then deleteDriver else ret tt
     else ret tt) ;;
    modify (set_timeToGetPosition (wrap64 (now + POSITION_REFRESH_INTERVAL))).

Definition constructor (nm params : string) (eq : Equinox) (uninit now : Z)
    (d : Device) : Outcome unit :=
  constructor_body params now (initial nm params eq uninit) d.

(** What getNow() answers at its three call sites in performCommunication:
    the throttle check, the server time stamp and the argument of add(). *)
Record Clock : Type := { now : Z; serverTime : Z; addTime : Z }.

(** performCommunication from "Get the coordinates" on. *)
Definition perform_read (k : Clock) : M unit :=
  ra <- drv_property P_RA ;;
  dec <- drv_property P_DEC ;;
  c <- this ;;
  let raHours := toDouble ra in
  let decDegrees := toDouble dec in
  let raRadians := (raHours * (M_PI / 12))%float in
  let decRadians := (decDegrees * (M_PI / 180))%float in
  let coordinates := spheToRect raRadians decRadians in
  let j2000Coordinates :=
    if Equinox_eqb (equinox c) EquinoxJNow
    then equinoxEquToJ2000 coordinates
    else coordinates in
  modify (set_interpolatedPosition
            (ip_add j2000Coordinates (addTime k) (serverTime k)
                    (interpolatedPosition c))).

Definition performCommunication (k : Clock) : M unit :=
  c <- this ;;
  if negb (isInitialized c) then ret tt
  else
    connected <- ensureConnected ;;
    if negb connected then ret tt
    else
      parked <- drv_property P_PARKED ;;
      if toBool parked then ret tt
      else
        c <- this ;;
        if now k <? timeToGetPosition c then ret tt
        else
          modify (set_timeToGetPosition
                    (wrap64 (now k + POSITION_REFRESH_INTERVAL))) ;;
          perform_read k.

(** The arguments of both slew methods for a target vector. *)
Definition slew_arguments (targetCoordinates : Vec3d) : list QVariant :=
  let (raRadians, decRadians) := rectToSphe targetCoordinates in
  let raHours := (raRadians * (12 / M_PI))%float in
  let decDegrees := (decRadians * (180 / M_PI))%float in
  [VDouble raHours; VDouble decDegrees].

(** telescopeGoto from "Equatorial system" on. *)
Definition goto_send (j2000Coordinates : Vec3d) : M unit :=
  c <- this ;;
  let targetCoordinates :=
    if Equinox_eqb (equinox c) EquinoxJNow
    then equinoxEquToJ2000 j2000Coordinates
    else j2000Coordinates in
  canSlewAsynchronously <- drv_property P_CAN_SLEW_ASYNCHRONOUSLY ;;
  if toBool canSlewAsynchronously then
    drv_dynamicCall M_SLEW_ASYNCHRONOUSLY (slew_arguments targetCoordinates)
  else
    canSlew <- drv_property P_CAN_SLEW ;;
    if toBool canSlew then
      drv_dynamicCall M_SLEW (slew_arguments targetCoordinates)
    else ret tt.

(** telescopeGoto from "Tracking?" on. *)
Definition goto_tracking (j2000Coordinates : Vec3d) : M unit :=
  isTracking <- drv_property P_TRACKING ;;
  if negb (toBool isTracking) then
    canTrack <- drv_property P_CAN_TRACK ;;
    if toBool canTrack then
      drv_setProperty P_TRACKING (VBool true) ;;
      isTracking <- drv_property P_TRACKING ;;
      if negb (toBool isTracking) then ret tt
      else goto_send j2000Coordinates
    else ret tt
  else goto_send j2000Coordinates.

(** telescopeGoto from "Parked?" on. *)
Definition goto_parked (j2000Coordinates : Vec3d) : M unit :=
  isParked <- drv_property P_PARKED ;;
  if toBool isParked then
    canUnpark <- drv_property P_CAN_UNPARK ;;
    if toBool canUnpark then
      drv_dynamicCall M_UNPARK [] ;;
      goto_tracking j2000Coordinates
    else ret tt
  else goto_tracking j2000Coordinates.

Definition telescopeGoto (j2000Coordinates : Vec3d) : M unit :=
  c <- this ;;
  if negb (isInitialized c) then ret tt
  else
    connected <- ensureConnected ;;
    if negb connected then ret tt
    else goto_parked j2000Coordinates.

Definition getJ2000EquatorialPos (t : Z) : M Vec3d :=
  c <- this ;;
  ret (ip_get (wrap64 (t - POSITION_REFRESH_INTERVAL))
              (interpolatedPosition c)).

(** The format string of handleDriverException. *)
Definition errorTemplate : string :=
  "%1: ASCOM driver error:" ++ newline ++
  "Code: %2" ++ newline ++
  "Source: %3" ++ newline ++
  "Description: %4".

Definition errorMessage (nm : string) (code : Z) (desc : string) : string :=
  arg (arg_int (arg errorTemplate nm) code) desc.

Definition handleDriverException (code : Z) (source desc help : string)
  : M unit :=
  c <- this ;;
  deleteDriver ;;
  emit_ascomError (errorMessage (name c) code desc).

(** ** Sessions: the host's calls after construction *)

Inductive Call : Type :=
| CallIsInitialized
| CallIsConnected
| CallPrepareCommunication
| CallPerformCommunication (k : Clock)
| CallTelescopeGoto (j2000Coordinates : Vec3d)
| CallGetJ2000EquatorialPos (t : Z)
| CallHandleDriverException (code : Z) (source desc help : string).

Inductive Answer : Type :=
| AnsVoid
| AnsBool (b : bool)
| AnsVec3d (v : Vec3d).

Definition call (op : Call) : M Answer :=
  match op with
  | CallIsInitialized => c <- this ;; ret (AnsBool (isInitialized c))
  | CallIsConnected => b <- isConnected ;; ret (AnsBool b)
  | CallPrepareCommunication => b <- prepareCommunication ;; ret (AnsBool b)
  | CallPerformCommunication k => performCommunication k ;; ret AnsVoid
  | CallTelescopeGoto v => telescopeGoto v ;; ret AnsVoid
  | CallGetJ2000EquatorialPos t =>
      v <- getJ2000EquatorialPos t ;; ret (AnsVec3d v)
  | CallHandleDriverException code source desc help =>
      handleDriverException code source desc help ;; ret AnsVoid
  end.

Fixpoint session (ops : list Call) : M (list Answer) :=
  match ops with
  | [] => ret []
  | op :: rest =>
      a <- call op ;;
      answers <- session rest ;;
      ret (a :: answers)
  end.

End Client.

Arguments Returned {host drv A} a c d evs.
Arguments NullDereference {host drv A} d evs.

(** ** A concrete driver and a concrete host, to run the client on

    [Mount] is a plain telescope: its flags are what the properties answer,
    connecting succeeds when [connectable], Unpark() releases a mount that can
    be unparked, and a slew moves a mount that can slew. *)

Record Mount : Type := {
  installed : bool;
  connectable : bool;
  connected : bool;
  atPark : bool;
  tracking : bool;
  canSlew : bool;
  canSlewAsync : bool;
  canSetTracking : bool;
  canUnpark : bool;
  rightAscension : float;
  declination : float
}.

Definition mount_property (p : string) (m : Mount) : QVariant * Mount :=
  (if String.eqb p P_CONNECTED then VBool (connected m)
   else if String.eqb p P_PARKED then VBool (atPark m)
   else if String.eqb p P_TRACKING then VBool (tracking m)
   else if String.eqb p P_CAN_SLEW then VBool (canSlew m)
   else if String.eqb p P_CAN_SLEW_ASYNCHRONOUSLY then VBool (canSlewAsync m)
   else if String.eqb p P_CAN_TRACK then VBool (canSetTracking m)
   else if String.eqb p P_CAN_UNPARK then VBool (canUnpark m)
   else if String.eqb p P_RA then VDouble (rightAscension m)
   else if String.eqb p P_DEC then VDouble (declination m)
   else VInvalid, m).

Definition mount_setProperty (p : string) (v : QVariant) (m : Mount) : Mount :=
  if String.eqb p P_CONNECTED then
    Build_Mount (installed m) (connectable m) (andb (toBool v) (connectable m))
      (atPark m) (tracking m) (canSlew m) (canSlewAsync m) (canSetTracking m)
      (canUnpark m) (rightAscension m) (declination m)
  else if andb (String.eqb p P_TRACKING) (canSetTracking m) then
    Build_Mount (installed m) (connectable m) (connected m)
      (atPark m) (toBool v) (canSlew m) (canSlewAsync m) (canSetTracking m)
      (canUnpark m) (rightAscension m) (declination m)
  else m.

Definition mount_dynamicCall (f : string) (args : list QVariant) (m : Mount)
  : Mount :=
  if andb (String.eqb f M_UNPARK) (canUnpark m) then
    Build_Mount (installed m) (connectable m) (connected m)
      false (tracking m) (canSlew m) (canSlewAsync m) (canSetTracking m)
      (canUnpark m) (rightAscension m) (declination m)
  else if andb (orb (String.eqb f M_SLEW) (String.eqb f M_SLEW_ASYNCHRONOUSLY))
               (andb (canSlew m) (negb (atPark m))) then
    match args with
    | [ra; dec] =>
        Build_Mount (installed m) (connectable m) (connected m)
          (atPark m) (tracking m) (canSlew m) (canSlewAsync m)
          (canSetTracking m) (canUnpark m) (toDouble ra) (toDouble dec)
    | _ => m
    end
  else m.

#[export] Instance MountDriver : AxDriver := {|
  Device := Mount;
  ax_setControl := fun _ m => (installed m, m);
  ax_property := mount_property;
  ax_setProperty := mount_setProperty;
  ax_dynamicCall := mount_dynamicCall
|}.

(** [PlainHost] keeps a direction as its two angles, so that the spherical
    conversions need no trigonometry, and takes precession to be a fixed
    shift in right ascension: subtracted towards J2000, added towards the
    equinox of the date.  The interpolation buffer is the list of the samples
    added, newest first. *)

Definition precession : float := 0.25%float.

(** Modelled from the spec: POSITION_REFRESH_INTERVAL is declared in the
    TelescopeClient header, outside this file; "Polling interval is a fixed
    constant (design-level: e.g. 5,000,000 microseconds)". *)
Definition PlainHost_interval : Z := 5000000.

#[export] Instance PlainHost : Host := {|
  Vec3d := float * float;
  spheToRect := fun ra dec => (ra, dec);
  rectToSphe := fun v => v;
  equinoxEquToJ2000 := fun v => ((fst v - precession)%float, snd v);
  j2000ToEquinoxEqu := fun v => ((fst v + precession)%float, snd v);
  InterpolatedPosition := list ((float * float) * Z * Z);
  ip_empty := [];
  ip_add := fun v clientTime serverTime l => (v, clientTime, serverTime) :: l;
  ip_get := fun _ l => match l with
                       | (v, _, _) :: _ => v
                       | [] => (0%float, 0%float)
                       end;
  POSITION_REFRESH_INTERVAL := PlainHost_interval
|}.

(** A mount that is installed, connectable and connected, able to do
    everything, neither parked nor tracking, pointing at 12h, +45 degrees. *)
Definition mount0 : Mount :=
  {| installed := true; connectable := true; connected := true;
     atPark := false; tracking := false; canSlew := true;
     canSlewAsync := true; canSetTracking := true; canUnpark := true;
     rightAscension := 12%float; declination := 45%float |}.

(** The client the constructor builds at time 0 on a reachable mount (lemma
    [constructor_mount0]): initialized, first poll due one interval later. *)
Definition client0 (eq : Equinox) : TelescopeClientAscom :=
  {| name := "Scope"; equinox := eq; driverId := "Mount.Telescope";
     driver := Some {| isNull := false |};
     timeToGetPosition := PlainHost_interval;
     interpolatedPosition := [] |}.

(** ** Vocabulary of the properties *)

(** The events of one call contain a read of property [p] whose answer
    converts to [b]: "the device reports ...". *)
Definition reports (p : string) (b : bool) (evs : list Event) : Prop :=
  exists v, In (EvGet p v) evs /\ toBool v = b.

Definition is_position_read (e : Event) : bool :=
  match e with
  | EvGet p _ => orb (String.eqb p P_RA) (String.eqb p P_DEC)
  | _ => false
  end.

Definition is_slew_call (e : Event) : bool :=
  match e with
  | EvCall m _ => orb (String.eqb m M_SLEW) (String.eqb m M_SLEW_ASYNCHRONOUSLY)
  | _ => false
  end.

Definition is_unpark_call (e : Event) : bool :=
  match e with
  | EvCall m _ => String.eqb m M_UNPARK
  | _ => false
  end.

Definition is_tracking_change (e : Event) : bool :=
  match e with
  | EvSet p _ => String.eqb p P_TRACKING
  | _ => false
  end.

(** The accesses performCommunication makes before it looks at the clock:
    reading Connected, setting it to true, reading AtPark. *)
Definition is_status_access (e : Event) : bool :=
  match e with
  | EvGet p _ => orb (String.eqb p P_CONNECTED) (String.eqb p P_PARKED)
  | EvSet p (VBool true) => String.eqb p P_CONNECTED
  | _ => false
  end.

Definition reads_position (evs : list Event) : bool :=
  existsb is_position_read evs.

(** Any property read at all. *)
Definition reads_device (evs : list Event) : bool :=
  existsb (fun e => match e with EvGet _ _ => true | _ => false end) evs.

Section Polling.
Context {host : Host} {drv : AxDriver}.

(** The [now] of every call, of a sequence of performCommunication calls,
    whose events satisfy [observed]. *)
Fixpoint read_times (observed : list Event -> bool) (calls : list Clock)
    (c : TelescopeClientAscom) (d : Device) : list Z :=
  match calls with
  | [] => []
  | k :: rest =>
      match performCommunication k c d with
      | Returned _ c1 d1 evs =>
          (if observed evs then [now k] else [])
            ++ read_times observed rest c1 d1
      | NullDereference _ _ => []
      end
  end.

(** The calls that read the position from the device. *)
Definition position_read_times := read_times reads_position.

(** The calls that read any property from the device. *)
Definition device_read_times := read_times reads_device.

End Polling.

(** The order of a dispatch: at most one Unpark(), then at most one change
    of Tracking, then at most one slew; reads may come anywhere. *)
Inductive Phase : Type :=
| PhaseChecking | PhaseUnparked | PhaseTracking | PhaseSlewing.

Definition phase_step (ph : Phase) (e : Event) : option Phase :=
  if is_unpark_call e then
    match ph with PhaseChecking => Some PhaseUnparked | _ => None end
  else if is_tracking_change e then
    match ph with
    | PhaseChecking | PhaseUnparked => Some PhaseTracking
    | _ => None
    end
  else if is_slew_call e then
    match ph with PhaseSlewing => None | _ => Some PhaseSlewing end
  else Some ph.

Fixpoint sequenced (ph : Phase) (evs : list Event) : bool :=
  match evs with
  | [] => true
  | e :: rest =>
      match phase_step ph e with
      | Some ph' => sequenced ph' rest
      | None => false
      end
  end.

(** Any two elements of the list, in order, lie at least [gap] apart. *)
Definition spaced (gap : Z) (l : list Z) : Prop :=
  ForallOrdPairs (fun earlier later => gap <= later - earlier) l.

Fixpoint no_percent (s : string) : bool :=
  match s with
  | EmptyString => true
  | String ch r => andb (negb (Ascii.eqb ch "%")) (no_percent r)
  end.

(** The message as the interface description words it: all four slots
    filled, and no vendor name. *)
Definition describedMessage (nm : string) (code : Z) (source desc : string)
  : string :=
  nm ++ ": driver error:" ++ newline ++
  "Code: " ++ number code ++ newline ++
  "Source: " ++ source ++ newline ++
  "Description: " ++ desc.

(** The link check of a call, scanned over its events: [linked] is what the
    last read of Connected answered.  While it is false only Connected may be
    read or set. *)
Fixpoint connection_guarded (linked : bool) (evs : list Event) : bool :=
  match evs with
  | [] => true
  | EvGet p v :: rest =>
      if String.eqb p P_CONNECTED then connection_guarded (toBool v) rest
      else andb linked (connection_guarded linked rest)
  | EvSet p _ :: rest =>
      if String.eqb p P_CONNECTED then connection_guarded linked rest
      else andb linked (connection_guarded linked rest)
  | EvAscomError _ :: rest => connection_guarded linked rest
  | _ :: rest => andb linked (connection_guarded linked rest)
  end.

(** The events begin with a read of Connected; when it answers false, a
    connection attempt follows (set Connected, read it back), and when that
    fails too, nothing else. *)
Definition connects_first (evs : list Event) : Prop :=
  exists v rest,
    evs = EvGet P_CONNECTED v :: rest /\
    (toBool v = false ->
     exists v' rest',
       rest = EvSet P_CONNECTED (VBool true) :: EvGet P_CONNECTED v' :: rest' /\
       (toBool v' = false -> rest' = [])).

(** Slews come only to a mount seen ready: [unparked] once AtPark answered
    false or Unpark() was called, [trackingOn] as the last read of Tracking
    answered. *)
Fixpoint slews_when_ready (unparked trackingOn : bool) (evs : list Event)
  : bool :=
  match evs with
  | [] => true
  | EvGet p v :: rest =>
      if String.eqb p P_PARKED then
        slews_when_ready (negb (toBool v)) trackingOn rest
      else if String.eqb p P_TRACKING then
        slews_when_ready unparked (toBool v) rest
      else slews_when_ready unparked trackingOn rest
  | EvCall m args :: rest =>
      if String.eqb m M_UNPARK then slews_when_ready true trackingOn rest
      else if is_slew_call (EvCall m args) then
        andb (andb unparked trackingOn)
             (slews_when_ready unparked trackingOn rest)
      else slews_when_ready unparked trackingOn rest
  | _ :: rest => slews_when_ready unparked trackingOn rest
  end.


(** ** Concrete inputs *)

Definition parkedMount (unparkable : bool) : Mount :=
  {| installed := true; connectable := true; connected := true;
     atPark := true; tracking := false; canSlew := true;
     canSlewAsync := true; canSetTracking := true; canUnpark := unparkable;
     rightAscension := 12%float; declination := 45%float |}.

Definition disconnectedMount (reachable : bool) : Mount :=
  {| installed := true; connectable := reachable; connected := false;
     atPark := false; tracking := false; canSlew := true;
     canSlewAsync := true; canSetTracking := true; canUnpark := true;
     rightAscension := 12%float; declination := 45%float |}.

(** Parked and releasable, not tracking, and unable to track. *)
Definition parkedNoTrackingMount : Mount :=
  {| installed := true; connectable := true; connected := true;
     atPark := true; tracking := false; canSlew := true;
     canSlewAsync := true; canSetTracking := false; canUnpark := true;
     rightAscension := 12%float; declination := 45%float |}.

(** Able to track, unable to slew in either way. *)
Definition noSlewMount : Mount :=
  {| installed := true; connectable := true; connected := true;
     atPark := false; tracking := false; canSlew := false;
     canSlewAsync := false; canSetTracking := true; canUnpark := true;
     rightAscension := 12%float; declination := 45%float |}.

(** A poll long before the first one is due, and a poll one second after. *)
Definition early : Clock := {| now := 10; serverTime := 11; addTime := 12 |}.

Definition due : Clock :=
  {| now := 6000000; serverTime := 6000001; addTime := 6000002 |}.

(** A J2000 target: right ascension 1 rad, declination 0.5 rad. *)
Definition target0 : @Vec3d PlainHost := (1%float, 0.5%float).

(** Six polls: too early, when the first is due, just after, and one, one
    and a bit, and two intervals later. *)
Definition polls0 : list Clock :=
  [ {| now := 10; serverTime := 11; addTime := 12 |};
    {| now := 5000000; serverTime := 5000001; addTime := 5000002 |};
    {| now := 5000010; serverTime := 5000011; addTime := 5000012 |};
    {| now := 10000000; serverTime := 10000001; addTime := 10000002 |};
    {| now := 10000005; serverTime := 10000006; addTime := 10000007 |};
    {| now := 15000000; serverTime := 15000001; addTime := 15000002 |} ].

(** Two polls ten microseconds apart. *)
Definition polls1 : list Clock :=
  [ {| now := 10; serverTime := 11; addTime := 12 |};
    {| now := 20; serverTime := 21; addTime := 22 |} ].

(** The client after a fault: the driver pointer is null. *)
Definition faultedClient : TelescopeClientAscom :=
  {| name := "Scope"; equinox := EquinoxJ2000; driverId := "Mount.Telescope";
     driver := None; timeToGetPosition := PlainHost_interval;
     interpolatedPosition := [] |}.

(** A driver identifier for which no control can be instantiated. *)
Definition absentMount : Mount :=
  {| installed := false; connectable := false; connected := false;
     atPark := false; tracking := false; canSlew := false;
     canSlewAsync := false; canSetTracking := false; canUnpark := false;
     rightAscension := 0%float; declination := 0%float |}.

(** Tracking already, and able to slew only synchronously. *)
Definition syncOnlyMount : Mount :=
  {| installed := true; connectable := true; connected := true;
     atPark := false; tracking := true; canSlew := true;
     canSlewAsync := false; canSetTracking := true; canUnpark := true;
     rightAscension := 12%float; declination := 45%float |}.

(** * Properties *)

(** ** Place markers behind text without a percent sign *)

Lemma escape_at_other (ch : ascii) (r : string) :
  Ascii.eqb ch "%" = false -> escape_at (String ch r) = None.
Proof.
  destruct ch as [[|] [|] [|] [|] [|] [|] [|] [|]]; intros H;
    try reflexivity; discriminate H.
Qed.

Lemma min_escape_app (p s : string) :
  no_percent p = true -> min_escape (p ++ s) = min_escape s.
Proof.
  induction p as [|ch p IH]; intros H; [reflexivity |].
  simpl in H. apply andb_true_iff in H. destruct H as [Hc Hp].
  apply negb_true_iff in Hc.
  change (min_escape (String ch p ++ s))
    with (option_min (option_map fst (escape_at (String ch (p ++ s))))
                     (min_escape (p ++ s))).
  rewrite (escape_at_other _ _ Hc). simpl. apply IH, Hp.
Qed.

Lemma replaceArgEscapes_app (n : nat) (a p s : string) :
  no_percent p = true ->
  replaceArgEscapes n a 0 (p ++ s) = p ++ replaceArgEscapes n a 0 s.
Proof.
  induction p as [|ch p IH]; intros H; [reflexivity |].
  simpl in H. apply andb_true_iff in H. destruct H as [Hc Hp].
  apply negb_true_iff in Hc.
  change (replaceArgEscapes n a 0 (String ch p ++ s))
    with (match escape_at (String ch (p ++ s)) with
          | Some (m, len) =>
              if Nat.eqb m n
              then a ++ replaceArgEscapes n a (Nat.pred len) (p ++ s)
              else String ch (replaceArgEscapes n a 0 (p ++ s))
          | None => String ch (replaceArgEscapes n a 0 (p ++ s))
          end).
  rewrite (escape_at_other _ _ Hc). rewrite (IH Hp). reflexivity.
Qed.

Lemma arg_app (p s a : string) :
  no_percent p = true -> arg (p ++ s) a = p ++ arg s a.
Proof.
  intros H. unfold arg. rewrite (min_escape_app _ _ H).
  destruct (min_escape s); [apply replaceArgEscapes_app, H | reflexivity].
Qed.

Lemma no_percent_string_of_uint (u : Decimal.uint) :
  no_percent (string_of_uint u) = true.
Proof. induction u; simpl; auto. Qed.

Lemma no_percent_number (n : Z) : no_percent (number n) = true.
Proof.
  unfold number. destruct (Z.to_int n) as [u | u].
  - destruct u; solve [reflexivity | apply (no_percent_string_of_uint (_ u))].
  - simpl. apply no_percent_string_of_uint.
Qed.

(** What handleDriverException really builds: three arguments for four
    markers.  [desc] lands behind "Source: ", the fourth marker stays, and
    [source] is not used. *)
Lemma errorMessage_exact (nm : string) (code : Z) (desc : string) :
  no_percent nm = true ->
  errorMessage nm code desc =
    nm ++ ": ASCOM driver error:" ++ newline ++
    "Code: " ++ number code ++ newline ++
    "Source: " ++ desc ++ newline ++
    "Description: %4".
Proof.
  intros Hn. unfold errorMessage, arg_int.
  (* %1: the template starts with the marker *)
  change (arg errorTemplate nm)
    with (nm ++ (": ASCOM driver error:" ++ newline ++ "Code: ")
             ++ "%2" ++ newline ++ "Source: %3" ++ newline
             ++ "Description: %4").
  (* %2: behind the name and a literal *)
  rewrite (arg_app nm _ _ Hn).
  rewrite (arg_app (": ASCOM driver error:" ++ newline ++ "Code: ") _ _
             eq_refl).
  change (arg ("%2" ++ newline ++ "Source: %3" ++ newline
                    ++ "Description: %4") (number code))
    with (number code ++ (newline ++ "Source: ") ++ "%3" ++ newline
                      ++ "Description: %4").
  (* %3: behind the name, a literal, the number and a literal *)
  rewrite (arg_app nm _ _ Hn).
  rewrite (arg_app (": ASCOM driver error:" ++ newline ++ "Code: ") _ _
             eq_refl).
  rewrite (arg_app (number code) _ _ (no_percent_number code)).
  rewrite (arg_app (newline ++ "Source: ") _ _ eq_refl).
  reflexivity.
Qed.

Lemma wrap64_in_range (z : Z) : in_qint64 z -> wrap64 z = z.
Proof.
  unfold in_qint64, wrap64. intros H.
  rewrite Z.mod_small; lia.
Qed.

(** Looks an event up in an explicit list of events. *)
Ltac find_event := cbn [In]; repeat (first [left; reflexivity | right]).

(** ** The client against any driver and any host *)

Section Properties.
Context {host : Host} {drv : AxDriver}.

Lemma isInitialized_driver (c : TelescopeClientAscom) :
  isInitialized c = true -> driver c = Some {| isNull := false |}.
Proof.
  unfold isInitialized.
  destruct (driver c) as [[[|]]|]; simpl; congruence.
Qed.

(** Every member function starts with the same guard. *)
Lemma not_isInitialized_events (c : TelescopeClientAscom) (d : Device) :
  isInitialized c = false ->
  (forall k, performCommunication k c d = Returned tt c d []) /\
  (forall t, telescopeGoto t c d = Returned tt c d []) /\
  isConnected c d = Returned false c d [] /\
  prepareCommunication c d = Returned false c d [].
Proof.
  intros H.
  unfold performCommunication, telescopeGoto, isConnected,
    prepareCommunication, bind, this, ret.
  rewrite H. simpl. auto.
Qed.

(** *** Symbolic execution of a member function

    [expose] makes the driver pointer of an initialized client explicit,
    [run] unfolds the function and splits on every answer of the driver,
    [read_report] matches a [reports] hypothesis with the events of a path. *)

Ltac expose c H :=
  apply isInitialized_driver in H;
  destruct c as [nm eqx did drvp ttgp ip]; simpl in H; subst drvp.

Ltac unfold_client :=
  cbv [performCommunication perform_read telescopeGoto goto_parked
       goto_tracking goto_send ensureConnected isConnected
       prepareCommunication deleteDriver handleDriverException
       emit_ascomError getJ2000EquatorialPos
       constructor constructor_body initial new_driver
       bind ret this modify drv_property drv_setProperty drv_dynamicCall
       drv_isNull isInitialized driver isNull negb events
       set_driver set_driverId set_timeToGetPosition
       set_interpolatedPosition
       name equinox driverId timeToGetPosition interpolatedPosition].

Ltac branch :=
  match goal with
  | |- context [let (_, _) := ax_property ?p ?d in _] =>
      let v := fresh "v" in
      let d1 := fresh "d" in
      let E := fresh "E" in
      destruct (ax_property p d) as [v d1] eqn:E
  | |- context [if toBool ?v then _ else _] =>
      let B := fresh "B" in destruct (toBool v) eqn:B
  | |- context [if Z.ltb ?a ?b then _ else _] =>
      let T := fresh "T" in destruct (Z.ltb a b) eqn:T
  | |- context [if Equinox_eqb ?a ?b then _ else _] =>
      let Q := fresh "Q" in destruct (Equinox_eqb a b) eqn:Q
  end.

Ltac names :=
  cbv [P_CONNECTED P_PARKED P_TRACKING P_CAN_SLEW P_CAN_SLEW_ASYNCHRONOUSLY
       P_CAN_TRACK P_CAN_UNPARK P_RA P_DEC M_UNPARK M_SLEW
       M_SLEW_ASYNCHRONOUSLY] in *.

Ltac run := unfold_client; repeat (branch; cbv beta iota); names; cbn [app].

Ltac read_report H :=
  let v := fresh "v" in
  let Hin := fresh "Hin" in
  let Hb := fresh "Hb" in
  destruct H as (v & Hin & Hb); cbn [app In] in Hin;
  repeat (destruct Hin as [Hin | Hin];
          [try discriminate Hin; try (injection Hin as <-) |]);
  try contradiction.

(** *** isConnected *)

(** C10: whenever isInitialized() is false, isConnected() answers false,
    causes no event at all (so no driver property access) and leaves the
    client and the device as they were. *)
Theorem isConnected_uninitialized (c : TelescopeClientAscom) (d : Device) :
  isInitialized c = false -> isConnected c d = Returned false c d [].
Proof.
  intros H. unfold isConnected, bind, this. rewrite H. reflexivity.
Qed.

(** *** The constructor *)

(** C2 (what the code does): when the Connected property reads back false
    after the constructor set it, the constructor does call deleteDriver but
    does not return: its next statement reads AtPark through the pointer it
    has just set to null.  The four events before that are all it did. *)
Theorem constructor_connection_failure
    (nm params : string) (eq : Equinox) (uninit t : Z) (d : Device) :
  reports P_CONNECTED false (events (constructor nm params eq uninit t d)) ->
  exists d' canSlew connectionAttemptSucceeded,
    constructor nm params eq uninit t d =
      NullDereference d'
        [EvSetControl params; EvGet P_CAN_SLEW canSlew;
         EvSet P_CONNECTED (VBool true);
         EvGet P_CONNECTED connectionAttemptSucceeded].
Proof.
  unfold_client.
  destruct (ax_setControl params d) as [[|] d0] eqn:Es; cbv beta iota.
  2:{ cbn [app]. intros H. read_report H. }
  repeat (branch; cbv beta iota); names; cbn [app]; intros H.
  all: read_report H; try congruence.
  all: do 3 eexists; reflexivity.
Qed.

(** *** performCommunication *)

(** Either the call reads no position and changes nothing in the client, or
    it was due, read the position and moved the schedule one interval past
    [now]. *)
Lemma performCommunication_cases
    (k : Clock) (c : TelescopeClientAscom) (d : Device) :
  exists c' d' evs,
    performCommunication k c d = Returned tt c' d' evs /\
    ((reads_position evs = false /\ c' = c) \/
     (reads_position evs = true /\
      timeToGetPosition c <= now k /\
      timeToGetPosition c' = wrap64 (now k + POSITION_REFRESH_INTERVAL))).
Proof.
  destruct (isInitialized c) eqn:Hi.
  2:{ destruct (not_isInitialized_events c d Hi) as (-> & _).
      do 3 eexists. split; [reflexivity | left; split; reflexivity]. }
  expose c Hi. run.
  all: do 3 eexists; (split; [reflexivity |]).
  all: try (left; split; reflexivity).
  all: right; split;
    [reflexivity | split; [apply Z.ltb_ge in T; exact T | reflexivity]].
Qed.

(** In a strictly increasing sequence of polls every position read happens
    at one of the polls and not before the schedule of the starting state. *)
Lemma position_read_times_bound (calls : list Clock) :
  forall (c : TelescopeClientAscom) (d : Device),
    StronglySorted Z.lt (map now calls) ->
    Forall (fun r => timeToGetPosition c <= r /\ In r (map now calls))
           (position_read_times calls c d).
Proof.
  unfold position_read_times.
  induction calls as [|k rest IH]; intros c d Hs; simpl.
  - constructor.
  - apply StronglySorted_inv in Hs. destruct Hs as [Hs Hk].
    destruct (performCommunication_cases k c d)
      as (c' & d' & evs & -> & [[-> ->] | (-> & Hdue & Ht)]); simpl.
    + eapply Forall_impl; [| apply IH; exact Hs].
      simpl. intros r [? ?]. auto.
    + constructor; [auto |].
      eapply Forall_impl; [| apply (IH c' d'); exact Hs].
      simpl. intros r [_ Hin]. split; [| auto].
      rewrite Forall_forall in Hk. specialize (Hk r Hin). lia.
Qed.

(** C5 (amended): in every sequence of performCommunication calls with
    strictly increasing [now], started in any state of client and device, any
    two calls that read the position (RightAscension, Declination) from the
    device lie at least POSITION_REFRESH_INTERVAL apart.  The time stamps are
    those a 64-bit clock can hold one interval before its end. *)
Theorem position_reads_spaced (calls : list Clock) :
  forall (c : TelescopeClientAscom) (d : Device),
    Forall (fun k => in_qint64 (now k + POSITION_REFRESH_INTERVAL)) calls ->
    StronglySorted Z.lt (map now calls) ->
    spaced POSITION_REFRESH_INTERVAL (position_read_times calls c d).
Proof.
  unfold spaced, position_read_times.
  induction calls as [|k rest IH]; intros c d Hr Hs; simpl.
  - constructor.
  - apply Forall_cons_iff in Hr. destruct Hr as [Hk Hr].
    apply StronglySorted_inv in Hs. destruct Hs as [Hs _].
    destruct (performCommunication_cases k c d)
      as (c' & d' & evs & -> & [[-> ->] | (-> & Hdue & Ht)]); simpl.
    + apply IH; assumption.
    + constructor; [| apply IH; assumption].
      rewrite (wrap64_in_range _ Hk) in Ht.
      eapply Forall_impl; [| apply (position_read_times_bound rest c' d' Hs)].
      simpl. intros r [Hb _]. lia.
Qed.

(** C6 (amended): when the device reports parked, performCommunication
    returns with the client unchanged: no sample is added and the next poll
    time stays where it was, whether or not a poll was due.  No position is
    read. *)
Theorem performCommunication_parked
    (k : Clock) (c : TelescopeClientAscom) (d : Device) :
  reports P_PARKED true (events (performCommunication k c d)) ->
  exists d' evs,
    performCommunication k c d = Returned tt c d' evs /\
    reads_position evs = false.
Proof.
  destruct (isInitialized c) eqn:Hi.
  2:{ destruct (not_isInitialized_events c d Hi) as (-> & _).
      intros _. do 2 eexists. split; reflexivity. }
  expose c Hi. intros H. revert H. run; intros H.
  all: read_report H; try congruence.
  all: do 2 eexists; split; reflexivity.
Qed.

(** C7 (amended): on an initialized client, a call with [now] strictly
    before the next poll time leaves the client unchanged (no sample, same
    poll time) and reads no position; but it is not silent: it first reads
    Connected, and all it does to the driver is read Connected, set Connected
    to true and read AtPark. *)
Theorem performCommunication_before_due
    (k : Clock) (c : TelescopeClientAscom) (d : Device) :
  isInitialized c = true ->
  now k < timeToGetPosition c ->
  exists d' evs,
    performCommunication k c d = Returned tt c d' evs /\
    (exists v rest, evs = EvGet P_CONNECTED v :: rest) /\
    Forall (fun e => is_status_access e = true) evs /\
    reads_position evs = false.
Proof.
  intros Hi Hlt. expose c Hi. simpl in Hlt. run.
  all: try (apply Z.ltb_ge in T; lia).
  all: do 2 eexists; (split; [reflexivity |]);
    (split; [do 2 eexists; reflexivity |]);
    (split; [repeat constructor | reflexivity]).
Qed.

(** X1: when a call reads the position, the sample it adds is the direction
    of the two angles read, passed through equinoxEquToJ2000 once in JNow
    mode and not at all in J2000 mode. *)
Lemma performCommunication_sample
    (k : Clock) (c c' : TelescopeClientAscom) (d d' : Device)
    (evs : list Event) :
  performCommunication k c d = Returned tt c' d' evs ->
  reads_position evs = true ->
  exists ra dec,
    In (EvGet P_RA ra) evs /\ In (EvGet P_DEC dec) evs /\
    interpolatedPosition c' =
      ip_add
        (let coordinates :=
           spheToRect (toDouble ra * (M_PI / 12))%float
                      (toDouble dec * (M_PI / 180))%float in
         match equinox c with
         | EquinoxJNow => equinoxEquToJ2000 coordinates
         | EquinoxJ2000 => coordinates
         end)
        (addTime k) (serverTime k) (interpolatedPosition c).
Proof.
  destruct (isInitialized c) eqn:Hi.
  2:{ destruct (not_isInitialized_events c d Hi) as (-> & _).
      intros H. injection H as <- <- <-. discriminate. }
  expose c Hi. run; intros H; injection H as <- <- <-; intros Hr;
    try discriminate Hr.
  all: destruct eqx; try discriminate Q.
  all: do 2 eexists; (split; [| split]);
    [find_event | find_event | reflexivity].
Qed.

(** *** telescopeGoto *)

(** C9: a telescopeGoto call in which the device reports parked and
    CanUnpark reads false issues no slew call, no Unpark() call and no
    change of Tracking. *)
Theorem telescopeGoto_parked_cannot_unpark
    (j2000Coordinates : Vec3d) (c : TelescopeClientAscom) (d : Device) :
  reports P_PARKED true (events (telescopeGoto j2000Coordinates c d)) ->
  reports P_CAN_UNPARK false (events (telescopeGoto j2000Coordinates c d)) ->
  Forall (fun e => is_slew_call e = false /\ is_unpark_call e = false /\
                   is_tracking_change e = false)
         (events (telescopeGoto j2000Coordinates c d)).
Proof.
  destruct (isInitialized c) eqn:Hi.
  2:{ destruct (not_isInitialized_events c d Hi) as (_ & -> & _).
      constructor. }
  expose c Hi. intros Hp Hu. revert Hp Hu. run; intros Hp Hu.
  all: read_report Hp; read_report Hu; try congruence.
  all: repeat constructor.
Qed.

(** C8 (amended): a telescopeGoto call in which CanSetTracking reads false,
    or in which CanSlewAsync and CanSlew both read false, returns normally
    with the client unchanged and issues no slew call.  (What it did to the
    device before it gave up is not part of this statement.) *)
Theorem telescopeGoto_capability_absent
    (j2000Coordinates : Vec3d) (c : TelescopeClientAscom) (d : Device) :
  reports P_CAN_TRACK false (events (telescopeGoto j2000Coordinates c d)) \/
  (reports P_CAN_SLEW_ASYNCHRONOUSLY false
     (events (telescopeGoto j2000Coordinates c d)) /\
   reports P_CAN_SLEW false (events (telescopeGoto j2000Coordinates c d))) ->
  exists d' evs,
    telescopeGoto j2000Coordinates c d = Returned tt c d' evs /\
    Forall (fun e => is_slew_call e = false) evs.
Proof.
  destruct (isInitialized c) eqn:Hi.
  2:{ destruct (not_isInitialized_events c d Hi) as (_ & -> & _).
      intros _. do 2 eexists. split; [reflexivity | constructor]. }
  expose c Hi. intros H. revert H. run; intros H.
  all: destruct H as [H | [H1 H2]];
    [ read_report H | read_report H1; read_report H2 ]; try congruence.
  all: do 2 eexists; (split; [reflexivity | repeat constructor]).
Qed.

(** C1 (what the code does): in JNow mode every slew call of telescopeGoto
    carries the hour angle and declination of
    [equinoxEquToJ2000 j2000Coordinates]: the J2000 target is passed once
    through the conversion that leads towards J2000, not through
    [j2000ToEquinoxEqu]. *)
Theorem telescopeGoto_JNow_slew_arguments
    (j2000Coordinates : Vec3d) (c : TelescopeClientAscom) (d : Device)
    (m : string) (args : list QVariant) :
  equinox c = EquinoxJNow ->
  In (EvCall m args) (events (telescopeGoto j2000Coordinates c d)) ->
  is_slew_call (EvCall m args) = true ->
  args = slew_arguments (equinoxEquToJ2000 j2000Coordinates).
Proof.
  destruct (isInitialized c) eqn:Hi.
  2:{ destruct (not_isInitialized_events c d Hi) as (_ & -> & _).
      intros _ []. }
  expose c Hi. simpl. intros ->. run; cbn [In]; intros Hin Hs.
  all: try discriminate Q.
  all: repeat (destruct Hin as [Hin | Hin];
               [try discriminate Hin; try (injection Hin as <- <-) |]);
    try contradiction; try discriminate Hs; try reflexivity.
Qed.

(** X2: in J2000 mode the target reaches every slew call unconverted. *)
Lemma telescopeGoto_J2000_slew_arguments
    (j2000Coordinates : Vec3d) (c : TelescopeClientAscom) (d : Device)
    (m : string) (args : list QVariant) :
  equinox c = EquinoxJ2000 ->
  In (EvCall m args) (events (telescopeGoto j2000Coordinates c d)) ->
  is_slew_call (EvCall m args) = true ->
  args = slew_arguments j2000Coordinates.
Proof.
  destruct (isInitialized c) eqn:Hi.
  2:{ destruct (not_isInitialized_events c d Hi) as (_ & -> & _).
      intros _ []. }
  expose c Hi. simpl. intros ->. run; cbn [In]; intros Hin Hs.
  all: try discriminate Q.
  all: repeat (destruct Hin as [Hin | Hin];
               [try discriminate Hin; try (injection Hin as <- <-) |]);
    try contradiction; try discriminate Hs; try reflexivity.
Qed.

(** X3: the driver calls of any telescopeGoto come in the order of a
    dispatch: Unpark() before the change of Tracking before the slew, each
    at most once. *)
Theorem telescopeGoto_sequenced
    (j2000Coordinates : Vec3d) (c : TelescopeClientAscom) (d : Device) :
  sequenced PhaseChecking (events (telescopeGoto j2000Coordinates c d)) = true.
Proof.
  destruct (isInitialized c) eqn:Hi.
  2:{ destruct (not_isInitialized_events c d Hi) as (_ & -> & _).
      reflexivity. }
  expose c Hi. run.
  all: reflexivity.
Qed.

(** *** handleDriverException *)

(** C4 (amended): for a session name without a percent sign, the handler
    emits one message, and it begins with the name, ": ASCOM driver error:",
    a line break, "Code: " and the code in decimal, a line break and
    "Source: ".  The device is not touched. *)
Theorem handleDriverException_message
    (code : Z) (source desc help : string)
    (c : TelescopeClientAscom) (d : Device) :
  no_percent (name c) = true ->
  exists c' rest,
    handleDriverException code source desc help c d =
      Returned tt c' d
        [EvAscomError
           (name c ++ ": ASCOM driver error:" ++ newline ++
            "Code: " ++ number code ++ newline ++
            "Source: " ++ rest)].
Proof.
  intros Hn. do 2 eexists.
  unfold handleDriverException, deleteDriver, emit_ascomError, modify,
    bind, this. cbn [app].
  rewrite (errorMessage_exact _ code desc Hn). reflexivity.
Qed.

(** A call on a client whose driver pointer is null returns, keeps the
    client and the device, and causes no driver access; the three queries
    answer false. *)
Lemma call_uninitialized (op : Call) (c : TelescopeClientAscom) (d : Device) :
  driver c = None ->
  exists a evs,
    call op c d = Returned a c d evs /\
    Forall (fun e => is_driver_access e = false) evs /\
    match op with
    | CallIsInitialized | CallIsConnected | CallPrepareCommunication =>
        a = AnsBool false
    | _ => True
    end.
Proof.
  intros Hd.
  assert (Hi : isInitialized c = false)
    by (unfold isInitialized; rewrite Hd; reflexivity).
  destruct (not_isInitialized_events c d Hi) as (Hp & Hg & Hc & Hpr).
  destruct op; unfold call, bind.
  - unfold this, ret. rewrite Hi. do 2 eexists. repeat split; constructor.
  - rewrite Hc. unfold ret. do 2 eexists. repeat split; constructor.
  - rewrite Hpr. unfold ret. do 2 eexists. repeat split; constructor.
  - rewrite Hp. unfold ret. do 2 eexists. repeat split; constructor.
  - rewrite Hg. unfold ret. do 2 eexists. repeat split; constructor.
  - unfold getJ2000EquatorialPos, bind, this, ret.
    do 2 eexists. repeat split; constructor.
  - unfold handleDriverException, deleteDriver, emit_ascomError, modify,
      bind, this, ret. rewrite Hd. simpl.
    do 2 eexists. repeat split. repeat constructor.
Qed.

Lemma session_uninitialized
    (ops : list Call) (c : TelescopeClientAscom) (d : Device) :
  driver c = None ->
  exists answers evs,
    session ops c d = Returned answers c d evs /\
    Forall (fun e => is_driver_access e = false) evs /\
    Forall2 (fun op a =>
               match op with
               | CallIsInitialized | CallIsConnected
               | CallPrepareCommunication => a = AnsBool false
               | _ => True
               end) ops answers.
Proof.
  intros Hd. induction ops as [|op rest IH]; simpl.
  - unfold ret. do 2 eexists. repeat split; constructor.
  - destruct (call_uninitialized op c d Hd) as (a & e1 & Ha & He1 & Hop).
    destruct IH as (answers & e2 & Hr & He2 & Hans).
    unfold bind. rewrite Ha, Hr. unfold ret.
    do 2 eexists. split; [reflexivity |]. split.
    + rewrite app_nil_r. apply Forall_app. auto.
    + constructor; assumption.
Qed.

(** C3: in any state of client and device, handleDriverException returns
    with the driver released, so that isInitialized() is false; and whatever
    calls the host makes afterwards (the queries, prepareCommunication,
    performCommunication, telescopeGoto, the position query, further fault
    notifications), all of them return, isInitialized(), isConnected() and
    prepareCommunication() answer false every time, the device never
    changes and none of the events is a driver access. *)
Theorem fault_is_terminal
    (code : Z) (source desc help : string) (ops : list Call)
    (c : TelescopeClientAscom) (d : Device) :
  exists c1 message,
    handleDriverException code source desc help c d =
      Returned tt c1 d [EvAscomError message] /\
    isInitialized c1 = false /\
    exists answers evs,
      session ops c1 d = Returned answers c1 d evs /\
      Forall (fun e => is_driver_access e = false) evs /\
      Forall2 (fun op a =>
                 match op with
                 | CallIsInitialized | CallIsConnected
                 | CallPrepareCommunication => a = AnsBool false
                 | _ => True
                 end) ops answers.
Proof.
  assert (Hd : driver (match driver c with
                       | Some _ => set_driver None c
                       | None => c
                       end) = None).
  { destruct (driver c) eqn:E; [reflexivity | exact E]. }
  do 2 eexists. split.
  - unfold handleDriverException, deleteDriver, emit_ascomError, modify,
      bind, this. simpl. reflexivity.
  - split.
    + unfold isInitialized. rewrite Hd. reflexivity.
    + apply session_uninitialized. exact Hd.
Qed.

(** *** Beyond the claims: what the member functions keep and never do *)

Ltac answers :=
  cbn -[toBool];
  repeat match goal with H : toBool _ = _ |- _ => rewrite H end;
  cbn -[toBool].

(** X4: in every state telescopeGoto returns and leaves the client object
    exactly as it was: no sample, no change of schedule, the driver kept. *)
Theorem telescopeGoto_frame
    (j2000Coordinates : Vec3d) (c : TelescopeClientAscom) (d : Device) :
  exists d' evs, telescopeGoto j2000Coordinates c d = Returned tt c d' evs.
Proof.
  destruct (isInitialized c) eqn:Hi.
  2:{ destruct (not_isInitialized_events c d Hi) as (_ & -> & _).
      do 2 eexists. reflexivity. }
  expose c Hi. run. all: do 2 eexists; reflexivity.
Qed.

(** X5: neither performCommunication nor telescopeGoto reads, sets or calls
    anything but Connected before a read of Connected has answered true. *)
Theorem accesses_connection_guarded
    (k : Clock) (j2000Coordinates : Vec3d)
    (c : TelescopeClientAscom) (d : Device) :
  connection_guarded false (events (performCommunication k c d)) = true /\
  connection_guarded false (events (telescopeGoto j2000Coordinates c d)) = true.
Proof.
  destruct (isInitialized c) eqn:Hi.
  2:{ destruct (not_isInitialized_events c d Hi) as (Hp & -> & _).
      rewrite Hp. split; reflexivity. }
  expose c Hi. split.
  - run. all: answers; reflexivity.
  - run. all: answers; reflexivity.
Qed.

(** X6: on an initialized client both performCommunication and
    telescopeGoto begin by reading Connected and, when it answers false,
    attempt to connect before anything else; when the attempt fails they do
    nothing more. *)
Theorem reconnects_on_every_call
    (k : Clock) (j2000Coordinates : Vec3d)
    (c : TelescopeClientAscom) (d : Device) :
  isInitialized c = true ->
  connects_first (events (performCommunication k c d)) /\
  connects_first (events (telescopeGoto j2000Coordinates c d)).
Proof.
  unfold connects_first. intros Hi. expose c Hi. split; run.
  all: do 2 eexists; (split; [reflexivity |]); intros Hv; try congruence.
  all: do 2 eexists; (split; [reflexivity |]); intros Hv'; try congruence.
  all: reflexivity.
Qed.

(** X7: a poll that is due on a mount that reports not parked does read the
    position: after the status accesses come RightAscension and Declination,
    in this order and last, the next poll time becomes [now] plus the
    interval, and driver, name and equinox mode stay. *)
Theorem performCommunication_due
    (k : Clock) (c : TelescopeClientAscom) (d : Device) :
  reports P_PARKED false (events (performCommunication k c d)) ->
  timeToGetPosition c <= now k ->
  exists c' d' status ra dec,
    performCommunication k c d =
      Returned tt c' d' (status ++ [EvGet P_RA ra; EvGet P_DEC dec]) /\
    Forall (fun e => is_status_access e = true) status /\
    timeToGetPosition c' = wrap64 (now k + POSITION_REFRESH_INTERVAL) /\
    driver c' = driver c /\ name c' = name c /\ equinox c' = equinox c.
Proof.
  destruct (isInitialized c) eqn:Hi.
  2:{ destruct (not_isInitialized_events c d Hi) as (-> & _).
      intros H. read_report H. }
  expose c Hi. simpl. intros H Hdue. revert H. run; intros H.
  all: try (apply Z.ltb_lt in T; lia).
  all: read_report H; try congruence.
  all: do 5 eexists; split;
    [ first [ exact (eq_refl : _ = Returned tt _ _ ([_; _] ++ [_; _]))
            | exact (eq_refl : _ = Returned tt _ _ ([_; _; _; _] ++ [_; _])) ]
    | split; [repeat constructor | repeat split] ].
Qed.

(** X8: every slew call of telescopeGoto comes after the mount was seen
    unparked (AtPark answered false, or Unpark() was called) and while the
    last read of Tracking answered true. *)
Theorem telescopeGoto_slews_when_ready
    (j2000Coordinates : Vec3d) (c : TelescopeClientAscom) (d : Device) :
  slews_when_ready false false (events (telescopeGoto j2000Coordinates c d))
  = true.
Proof.
  destruct (isInitialized c) eqn:Hi.
  2:{ destruct (not_isInitialized_events c d Hi) as (_ & -> & _).
      reflexivity. }
  expose c Hi. run. all: answers; reflexivity.
Qed.

(** X9: the asynchronous slew is preferred.  A slew call of telescopeGoto is
    either SlewToCoordinatesAsync, after CanSlewAsync answered true and
    without CanSlew being read at all, or SlewToCoordinates, after
    CanSlewAsync answered false and CanSlew true. *)
Theorem telescopeGoto_prefers_asynchronous
    (j2000Coordinates : Vec3d) (c : TelescopeClientAscom) (d : Device)
    (m : string) (args : list QVariant) :
  In (EvCall m args) (events (telescopeGoto j2000Coordinates c d)) ->
  is_slew_call (EvCall m args) = true ->
  (m = M_SLEW_ASYNCHRONOUSLY /\
   reports P_CAN_SLEW_ASYNCHRONOUSLY true
     (events (telescopeGoto j2000Coordinates c d)) /\
   forall v, ~ In (EvGet P_CAN_SLEW v)
               (events (telescopeGoto j2000Coordinates c d))) \/
  (m = M_SLEW /\
   reports P_CAN_SLEW_ASYNCHRONOUSLY false
     (events (telescopeGoto j2000Coordinates c d)) /\
   reports P_CAN_SLEW true (events (telescopeGoto j2000Coordinates c d))).
Proof.
  destruct (isInitialized c) eqn:Hi.
  2:{ destruct (not_isInitialized_events c d Hi) as (_ & -> & _).
      intros []. }
  expose c Hi. run; cbn [In]; intros Hin Hs.
  all: repeat (destruct Hin as [Hin | Hin];
               [try discriminate Hin; try (injection Hin as <- <-) |]);
    try contradiction; try discriminate Hs.
  all: first
    [ left; split; [reflexivity |]; split;
      [ eexists; split; [find_event | assumption]
      | intros w Hw; cbn [In] in Hw;
        repeat (destruct Hw as [Hw | Hw]; [discriminate Hw |]); exact Hw ]
    | right; split; [reflexivity |]; split;
      eexists; (split; [find_event | assumption]) ].
Qed.

(** X10: when no control can be instantiated for the driver identifier, the
    constructor returns after setControl alone: no property is read or set,
    the client holds a QAxObject without control and is not initialized, and
    timeToGetPosition keeps its indeterminate content. *)
Theorem constructor_no_control
    (nm params : string) (eq : Equinox) (uninit t : Z) (d : Device) :
  fst (ax_setControl params d) = false ->
  exists c',
    constructor nm params eq uninit t d =
      Returned tt c' (snd (ax_setControl params d)) [EvSetControl params] /\
    driver c' = Some {| isNull := true |} /\
    isInitialized c' = false /\
    timeToGetPosition c' = uninit /\
    name c' = nm /\ equinox c' = eq /\ driverId c' = params.
Proof.
  unfold_client.
  destruct (ax_setControl params d) as [[|] d0] eqn:Es; cbn [fst snd app];
    intros H; [discriminate H |].
  eexists. split; [reflexivity |]. repeat split.
Qed.

(** X11: when the constructor returns, the client carries the name, the
    equinox mode and the driver identifier it was given, and it is
    initialized exactly when Connected read back true and the mount either
    reported not parked or reported that it can unpark; the first poll is
    then due one interval after construction. *)
Theorem constructor_result
    (nm params : string) (eq : Equinox) (uninit t : Z) (d d' : Device)
    (c' : TelescopeClientAscom) (evs : list Event) :
  constructor nm params eq uninit t d = Returned tt c' d' evs ->
  name c' = nm /\ equinox c' = eq /\ driverId c' = params /\
  (isInitialized c' = true <->
   reports P_CONNECTED true evs /\
   (reports P_PARKED false evs \/ reports P_CAN_UNPARK true evs)) /\
  (isInitialized c' = true ->
   timeToGetPosition c' = wrap64 (t + POSITION_REFRESH_INTERVAL)).
Proof.
  unfold_client.
  destruct (ax_setControl params d) as [[|] d0] eqn:Es; cbv beta iota.
  2:{ cbn [app]. intros H. injection H as <- <- <-.
      repeat split; try discriminate.
      intros [H _]. read_report H. }
  repeat (branch; cbv beta iota); names; cbn [app]; intros H;
    try discriminate H; injection H as <- <- <-.
  all: split; [reflexivity |]; split; [reflexivity |];
    split; [reflexivity |]; split; [split |].
  all: try (intros Hi; first [discriminate Hi | reflexivity]).
  all: try (intros [H1 [H2 | H2]];
            first [ reflexivity
                  | read_report H1; read_report H2; congruence ]).
  all: intros _; split;
    [ eexists; split; [find_event | assumption]
    | first [ left; eexists; split; [find_event | assumption]
            | right; eexists; split; [find_event | assumption] ] ].
Qed.

(** X12: when the mount reports parked and unable to unpark, the constructor
    returns with the driver released (a null pointer), having issued no
    Unpark(), no slew and no change of Tracking. *)
Theorem constructor_parked_releases
    (nm params : string) (eq : Equinox) (uninit t : Z) (d : Device) :
  reports P_PARKED true (events (constructor nm params eq uninit t d)) ->
  reports P_CAN_UNPARK false (events (constructor nm params eq uninit t d)) ->
  exists c' d' evs,
    constructor nm params eq uninit t d = Returned tt c' d' evs /\
    driver c' = None /\
    Forall (fun e => is_slew_call e = false /\ is_unpark_call e = false /\
                     is_tracking_change e = false) evs.
Proof.
  unfold_client.
  destruct (ax_setControl params d) as [[|] d0] eqn:Es; cbv beta iota.
  2:{ cbn [app]. intros H. read_report H. }
  repeat (branch; cbv beta iota); names; cbn [app]; intros H1 H2.
  all: read_report H1; read_report H2; try congruence.
  all: do 3 eexists; split; [reflexivity |]; split;
    [reflexivity | repeat constructor].
Qed.






(** X15: for a session name without a percent sign, the fault handler
    releases the driver, keeps name, equinox mode, schedule and samples,
    does not touch the device and emits one message: the name,
    ": ASCOM driver error:", then "Code: " with the code, "Source: " with the
    description passed in, and "Description: " with the marker %4 of the
    template; the source and help passed in do not appear. *)
Theorem handleDriverException_outcome
    (code : Z) (source desc help : string)
    (c : TelescopeClientAscom) (d : Device) :
  no_percent (name c) = true ->
  exists c',
    handleDriverException code source desc help c d =
      Returned tt c' d
        [EvAscomError
           (name c ++ ": ASCOM driver error:" ++ newline ++
            "Code: " ++ number code ++ newline ++
            "Source: " ++ desc ++ newline ++
            "Description: %4")] /\
    driver c' = None /\
    name c' = name c /\ equinox c' = equinox c /\
    timeToGetPosition c' = timeToGetPosition c /\
    interpolatedPosition c' = interpolatedPosition c.
Proof.
  intros Hn. eexists.
  unfold handleDriverException, deleteDriver, emit_ascomError, modify,
    bind, this. cbn [app].
  rewrite (errorMessage_exact _ code desc Hn). split; [reflexivity |].
  destruct (driver c) eqn:E; repeat split; assumption.
Qed.

End Properties.

(** ** The client on the plain mount *)

(** The constructor, at time 0, on a mount that is reachable and not yet
    connected: it connects the mount and returns [client0]. *)
Lemma constructor_mount0 (eq : Equinox) :
  constructor "Scope" "Mount.Telescope" eq 0 0 (disconnectedMount true) =
    Returned tt (client0 eq) mount0
      [EvSetControl "Mount.Telescope"; EvGet P_CAN_SLEW (VBool true);
       EvSet P_CONNECTED (VBool true); EvGet P_CONNECTED (VBool true);
       EvGet P_PARKED (VBool false)].
Proof. reflexivity. Qed.

(** Witness of C10: a client whose driver pointer is null. *)
Lemma isConnected_uninitialized_witness :
  isConnected faultedClient mount0 = Returned false faultedClient mount0 [].
Proof. apply isConnected_uninitialized. reflexivity. Defined.

(** Witness of C2: a mount that is installed but cannot be connected. *)
Lemma constructor_connection_failure_witness :
  exists d' canSlew connectionAttemptSucceeded,
    constructor "Scope" "Mount.Telescope" EquinoxJ2000 0 0
                (disconnectedMount false) =
      NullDereference d'
        [EvSetControl "Mount.Telescope"; EvGet P_CAN_SLEW canSlew;
         EvSet P_CONNECTED (VBool true);
         EvGet P_CONNECTED connectionAttemptSucceeded].
Proof.
  apply constructor_connection_failure.
  exists (VBool false). split; [vm_compute; find_event | reflexivity].
Defined.

(** Counterexample to C5: two polls ten microseconds apart both read the
    device (Connected and AtPark), far less than an interval apart. *)
Lemma status_reads_not_spaced :
  StronglySorted Z.lt (map now polls1) /\
  device_read_times (drv := MountDriver)
    polls1 (client0 EquinoxJ2000) mount0 = [10; 20] /\
  ~ spaced POSITION_REFRESH_INTERVAL
      (device_read_times (drv := MountDriver)
         polls1 (client0 EquinoxJ2000) mount0).
Proof.
  split; [simpl; repeat constructor |]. split; [reflexivity |].
  change (device_read_times (drv := MountDriver)
            polls1 (client0 EquinoxJ2000) mount0) with [10; 20].
  unfold spaced. intros H. inversion H as [| a l Ha _]; subst.
  inversion Ha as [| b l' Hb _]; subst.
  vm_compute in Hb. apply Hb. reflexivity.
Qed.

(** Witness of C5 (amended): of the six polls, those at one, two and three
    intervals read the position. *)
Lemma position_reads_spaced_witness :
  spaced POSITION_REFRESH_INTERVAL
         (position_read_times polls0 (client0 EquinoxJ2000) mount0) /\
  position_read_times polls0 (client0 EquinoxJ2000) mount0 =
    [5000000; 10000000; 15000000].
Proof.
  split; [| reflexivity].
  apply position_reads_spaced.
  - repeat (apply Forall_cons; [unfold in_qint64; simpl; lia |]).
    apply Forall_nil.
  - simpl. repeat constructor.
Defined.

(** Counterexample to C6: the poll is due and the mount reports parked; the
    call returns with the client as it was, so the next poll time is still
    the old one and not [now] plus the interval. *)
Lemma parked_poll_not_rescheduled :
  timeToGetPosition (client0 EquinoxJ2000) <= now due /\
  performCommunication due (client0 EquinoxJ2000) (parkedMount true) =
    Returned tt (client0 EquinoxJ2000) (parkedMount true)
      [EvGet P_CONNECTED (VBool true); EvGet P_PARKED (VBool true)] /\
  timeToGetPosition (client0 EquinoxJ2000) <>
    now due + POSITION_REFRESH_INTERVAL.
Proof.
  split; [vm_compute; discriminate |]. split; [reflexivity |].
  vm_compute. discriminate.
Qed.

(** Witness of C6 (amended), on the same input. *)
Lemma performCommunication_parked_witness :
  exists d' evs,
    performCommunication due (client0 EquinoxJ2000) (parkedMount true) =
      Returned tt (client0 EquinoxJ2000) d' evs /\
    reads_position evs = false.
Proof.
  apply performCommunication_parked.
  exists (VBool true). split; [vm_compute; find_event | reflexivity].
Defined.

(** Counterexample to C7: the client is initialized and [now] is before the
    next poll time, yet the call reads Connected, sets it, reads it again
    and reads AtPark, and the mount ends up connected. *)
Lemma early_poll_accesses_driver :
  isInitialized (client0 EquinoxJ2000) = true /\
  now early < timeToGetPosition (client0 EquinoxJ2000) /\
  performCommunication early (client0 EquinoxJ2000) (disconnectedMount true) =
    Returned tt (client0 EquinoxJ2000) mount0
      [EvGet P_CONNECTED (VBool false); EvSet P_CONNECTED (VBool true);
       EvGet P_CONNECTED (VBool true); EvGet P_PARKED (VBool false)] /\
  connected (disconnectedMount true) = false /\
  connected mount0 = true.
Proof. repeat split. Qed.

(** Witness of C7 (amended), on the same input. *)
Lemma performCommunication_before_due_witness :
  exists d' evs,
    performCommunication early (client0 EquinoxJ2000)
                         (disconnectedMount true) =
      Returned tt (client0 EquinoxJ2000) d' evs /\
    (exists v rest, evs = EvGet P_CONNECTED v :: rest) /\
    Forall (fun e => is_status_access e = true) evs /\
    reads_position evs = false.
Proof.
  apply performCommunication_before_due; [reflexivity | reflexivity].
Defined.

(** Counterexample to C8.  A parked mount that cannot track: CanSetTracking
    reads false and no slew is issued, but Unpark() has been called and the
    mount is no longer parked.  A mount without either slew capability: both
    flags read false and no slew is issued, but Tracking has been set and the
    mount is now tracking. *)
Lemma dropped_goto_changes_device :
  (exists d',
     telescopeGoto target0 (client0 EquinoxJ2000) parkedNoTrackingMount =
       Returned tt (client0 EquinoxJ2000) d'
         [EvGet P_CONNECTED (VBool true); EvGet P_PARKED (VBool true);
          EvGet P_CAN_UNPARK (VBool true); EvCall M_UNPARK [];
          EvGet P_TRACKING (VBool false); EvGet P_CAN_TRACK (VBool false)] /\
     atPark parkedNoTrackingMount = true /\ atPark d' = false) /\
  (exists d',
     telescopeGoto target0 (client0 EquinoxJ2000) noSlewMount =
       Returned tt (client0 EquinoxJ2000) d'
         [EvGet P_CONNECTED (VBool true); EvGet P_PARKED (VBool false);
          EvGet P_TRACKING (VBool false); EvGet P_CAN_TRACK (VBool true);
          EvSet P_TRACKING (VBool true); EvGet P_TRACKING (VBool true);
          EvGet P_CAN_SLEW_ASYNCHRONOUSLY (VBool false);
          EvGet P_CAN_SLEW (VBool false)] /\
     tracking noSlewMount = false /\ tracking d' = true).
Proof. split; eexists; repeat split. Qed.

(** Witness of C8 (amended), on the mount that cannot track. *)
Lemma telescopeGoto_capability_absent_witness :
  exists d' evs,
    telescopeGoto target0 (client0 EquinoxJ2000) parkedNoTrackingMount =
      Returned tt (client0 EquinoxJ2000) d' evs /\
    Forall (fun e => is_slew_call e = false) evs.
Proof.
  apply telescopeGoto_capability_absent. left.
  exists (VBool false). split; [vm_compute; find_event | reflexivity].
Defined.

(** Witness of C9: a parked mount that cannot be unparked. *)
Lemma telescopeGoto_parked_cannot_unpark_witness :
  Forall (fun e => is_slew_call e = false /\ is_unpark_call e = false /\
                   is_tracking_change e = false)
         (events (telescopeGoto target0 (client0 EquinoxJ2000)
                                (parkedMount false))).
Proof.
  apply telescopeGoto_parked_cannot_unpark;
    [exists (VBool true) | exists (VBool false)];
    (split; [vm_compute; find_event | reflexivity]).
Defined.

(** Witness of X1: a poll in JNow mode that is due; 12h, +45 degrees is
    stored as (pi - 0.25, pi / 4), converted once. *)
Lemma performCommunication_sample_witness :
  [((0x1.721fb54442d18p+1%float, 0x1.921fb54442d18p-1%float),
    6000002, 6000001)] =
  [(equinoxEquToJ2000
      (spheToRect (12 * (M_PI / 12))%float (45 * (M_PI / 180))%float),
    6000002, 6000001)].
Proof.
  destruct (performCommunication_sample
              (host := PlainHost) (drv := MountDriver)
              due (client0 EquinoxJNow)
              (set_interpolatedPosition (host := PlainHost)
                 [((0x1.721fb54442d18p+1%float,
                    0x1.921fb54442d18p-1%float), 6000002, 6000001)]
                 (set_timeToGetPosition 11000000 (client0 EquinoxJNow)))
              mount0 mount0
              [EvGet P_CONNECTED (VBool true); EvGet P_PARKED (VBool false);
               EvGet P_RA (VDouble 12); EvGet P_DEC (VDouble 45)]
              eq_refl eq_refl)
    as (ra & dec & Hra & Hdec & Hs).
  repeat (destruct Hra as [Hra | Hra];
          [try discriminate Hra; try (injection Hra as <-) |]);
    try contradiction.
  repeat (destruct Hdec as [Hdec | Hdec];
          [try discriminate Hdec; try (injection Hdec as <-) |]);
    try contradiction.
  exact Hs.
Defined.

(** Witness of X2: a goto in J2000 mode; the target is sent as it is. *)
Lemma telescopeGoto_J2000_slew_arguments_witness :
  [VDouble 0x1.e8ec8a4aeacc4p+1%float; VDouble 0x1.ca5dc1a63c1f8p+4%float] =
    slew_arguments target0.
Proof.
  apply (telescopeGoto_J2000_slew_arguments
           (drv := MountDriver)
           target0 (client0 EquinoxJ2000) mount0 M_SLEW_ASYNCHRONOUSLY);
    [reflexivity | vm_compute; find_event | reflexivity].
Defined.

(** Witness of C1, and the failing input: in JNow mode the target
    (1 rad, 0.5 rad) is sent as the hour angle of 1 - 0.25 rad, the result of
    equinoxEquToJ2000, which differs from that of 1 + 0.25 rad, the result of
    j2000ToEquinoxEqu. *)
Lemma telescopeGoto_JNow_slew_arguments_witness :
  [VDouble 0x1.6eb167b830193p+1%float; VDouble 0x1.ca5dc1a63c1f8p+4%float] =
    slew_arguments (equinoxEquToJ2000 target0) /\
  slew_arguments (equinoxEquToJ2000 target0) <>
    slew_arguments (j2000ToEquinoxEqu target0).
Proof.
  split.
  - apply (telescopeGoto_JNow_slew_arguments
             (drv := MountDriver)
             target0 (client0 EquinoxJNow) mount0 M_SLEW_ASYNCHRONOUSLY);
      [reflexivity | vm_compute; find_event | reflexivity].
  - intros H.
    apply (f_equal (fun l => match l with
                             | VDouble x :: _ =>
                                 PrimFloat.eqb x 0x1.6eb167b830193p+1%float
                             | _ => false
                             end)) in H.
    vm_compute in H. discriminate H.
Defined.

(** Counterexample to C4: for the fault (5, "src", "oops") on the session
    "Scope" the message reads "ASCOM driver error", shows the description
    behind "Source: " and an unfilled marker behind "Description: "; the
    source is nowhere in it. *)
Lemma handleDriverException_drops_source :
  handleDriverException 5 "src" "oops" "help" (client0 EquinoxJ2000) mount0 =
    Returned tt faultedClient mount0
      [EvAscomError
         ("Scope: ASCOM driver error:" ++ newline ++
          "Code: 5" ++ newline ++
          "Source: oops" ++ newline ++
          "Description: %4")] /\
  "Scope: ASCOM driver error:" ++ newline ++
  "Code: 5" ++ newline ++
  "Source: oops" ++ newline ++
  "Description: %4" <> describedMessage "Scope" 5 "src" "oops".
Proof.
  split; [reflexivity |]. intros H. vm_compute in H. discriminate H.
Qed.

(** Witness of C4 (amended), on the same fault. *)
Lemma handleDriverException_message_witness :
  exists c' rest,
    handleDriverException 5 "src" "oops" "help" (client0 EquinoxJ2000)
                          mount0 =
      Returned tt c' mount0
        [EvAscomError
           (name (client0 EquinoxJ2000) ++ ": ASCOM driver error:" ++
            newline ++ "Code: " ++ number 5 ++ newline ++
            "Source: " ++ rest)].
Proof. apply handleDriverException_message. reflexivity. Defined.

(** ** Beyond the claims, on the plain mount *)

(** The two scans do reject: a read of AtPark before Connected answered
    true, and a slew to a mount last seen parked or not tracking. *)
Lemma scans_reject :
  connection_guarded false
    [EvGet P_CONNECTED (VBool false); EvGet P_PARKED (VBool false)] = false /\
  slews_when_ready false false
    [EvGet P_PARKED (VBool true); EvGet P_TRACKING (VBool true);
     EvCall M_SLEW []] = false /\
  slews_when_ready false false
    [EvGet P_PARKED (VBool false); EvGet P_TRACKING (VBool false);
     EvCall M_SLEW_ASYNCHRONOUSLY []] = false.
Proof. repeat split. Qed.

(** Witness of X6: a mount that is not connected yet. *)
Lemma reconnects_on_every_call_witness :
  connects_first
    (events (performCommunication early (client0 EquinoxJ2000)
                                  (disconnectedMount true))) /\
  connects_first
    (events (telescopeGoto target0 (client0 EquinoxJ2000)
                           (disconnectedMount true))).
Proof. apply reconnects_on_every_call. reflexivity. Defined.

(** Witness of X7: the poll one second after the first is due. *)
Lemma performCommunication_due_witness :
  exists c' d' status ra dec,
    performCommunication due (client0 EquinoxJ2000) mount0 =
      Returned tt c' d' (status ++ [EvGet P_RA ra; EvGet P_DEC dec]) /\
    Forall (fun e => is_status_access e = true) status /\
    timeToGetPosition c' = wrap64 (now due + POSITION_REFRESH_INTERVAL) /\
    driver c' = driver (client0 EquinoxJ2000) /\
    name c' = name (client0 EquinoxJ2000) /\
    equinox c' = equinox (client0 EquinoxJ2000).
Proof.
  apply performCommunication_due.
  - exists (VBool false). split; [vm_compute; find_event | reflexivity].
  - vm_compute. discriminate.
Defined.

(** Witness of X9: a mount that slews only synchronously. *)
Lemma telescopeGoto_prefers_asynchronous_witness :
  (M_SLEW = M_SLEW_ASYNCHRONOUSLY /\
   reports P_CAN_SLEW_ASYNCHRONOUSLY true
     (events (telescopeGoto target0 (client0 EquinoxJ2000) syncOnlyMount)) /\
   forall v, ~ In (EvGet P_CAN_SLEW v)
               (events (telescopeGoto target0 (client0 EquinoxJ2000)
                                      syncOnlyMount))) \/
  (M_SLEW = M_SLEW /\
   reports P_CAN_SLEW_ASYNCHRONOUSLY false
     (events (telescopeGoto target0 (client0 EquinoxJ2000) syncOnlyMount)) /\
   reports P_CAN_SLEW true
     (events (telescopeGoto target0 (client0 EquinoxJ2000) syncOnlyMount))).
Proof.
  apply (telescopeGoto_prefers_asynchronous
           (drv := MountDriver) target0 (client0 EquinoxJ2000) syncOnlyMount
           M_SLEW (slew_arguments target0));
    [vm_compute; find_event | reflexivity].
Defined.

(** Witness of X10: no control behind the identifier. *)
Lemma constructor_no_control_witness :
  exists c',
    constructor "Scope" "Mount.Telescope" EquinoxJ2000 7 0 absentMount =
      Returned tt c' absentMount [EvSetControl "Mount.Telescope"] /\
    driver c' = Some {| isNull := true |} /\
    isInitialized c' = false /\
    timeToGetPosition c' = 7 /\
    name c' = "Scope" /\ equinox c' = EquinoxJ2000 /\
    driverId c' = "Mount.Telescope".
Proof.
  apply (constructor_no_control
           (host := PlainHost) (drv := MountDriver)
           "Scope" "Mount.Telescope" EquinoxJ2000 7 0 absentMount).
  reflexivity.
Defined.

(** Witness of X11: the construction of [client0]. *)
Lemma constructor_result_witness :
  name (client0 EquinoxJNow) = "Scope" /\
  equinox (client0 EquinoxJNow) = EquinoxJNow /\
  driverId (client0 EquinoxJNow) = "Mount.Telescope" /\
  (isInitialized (client0 EquinoxJNow) = true <->
   reports P_CONNECTED true
     [EvSetControl "Mount.Telescope"; EvGet P_CAN_SLEW (VBool true);
      EvSet P_CONNECTED (VBool true); EvGet P_CONNECTED (VBool true);
      EvGet P_PARKED (VBool false)] /\
   (reports P_PARKED false
      [EvSetControl "Mount.Telescope"; EvGet P_CAN_SLEW (VBool true);
       EvSet P_CONNECTED (VBool true); EvGet P_CONNECTED (VBool true);
       EvGet P_PARKED (VBool false)] \/
    reports P_CAN_UNPARK true
      [EvSetControl "Mount.Telescope"; EvGet P_CAN_SLEW (VBool true);
       EvSet P_CONNECTED (VBool true); EvGet P_CONNECTED (VBool true);
       EvGet P_PARKED (VBool false)])) /\
  (isInitialized (client0 EquinoxJNow) = true ->
   timeToGetPosition (client0 EquinoxJNow) =
     wrap64 (0 + POSITION_REFRESH_INTERVAL)).
Proof.
  apply (constructor_result
           (host := PlainHost) (drv := MountDriver)
           "Scope" "Mount.Telescope" EquinoxJNow 0 0
           (disconnectedMount true) mount0).
  reflexivity.
Defined.

(** Witness of X12: a parked mount that cannot unpark. *)
Lemma constructor_parked_releases_witness :
  exists c' d' evs,
    constructor "Scope" "Mount.Telescope" EquinoxJ2000 0 0
                (parkedMount false) = Returned tt c' d' evs /\
    driver c' = None /\
    Forall (fun e => is_slew_call e = false /\ is_unpark_call e = false /\
                     is_tracking_change e = false) evs.
Proof.
  apply constructor_parked_releases;
    [exists (VBool true) | exists (VBool false)];
    (split; [vm_compute; find_event | reflexivity]).
Defined.


(** Witness of X15: the fault (5, "src", "oops") on the session "Scope". *)
Lemma handleDriverException_outcome_witness :
  exists c',
    handleDriverException 5 "src" "oops" "help" (client0 EquinoxJ2000)
                          mount0 =
      Returned tt c' mount0
        [EvAscomError
           (name (client0 EquinoxJ2000) ++ ": ASCOM driver error:" ++
            newline ++ "Code: " ++ number 5 ++ newline ++
            "Source: " ++ "oops" ++ newline ++
            "Description: %4")] /\
    driver c' = None /\
    name c' = name (client0 EquinoxJ2000) /\
    equinox c' = equinox (client0 EquinoxJ2000) /\
    timeToGetPosition c' = timeToGetPosition (client0 EquinoxJ2000) /\
    interpolatedPosition c' = interpolatedPosition (client0 EquinoxJ2000).
Proof. apply handleDriverException_outcome. reflexivity. Defined.
